(** * EchoLearn backend: a shallow embedding of [main.py]

    The program is a small FastAPI application: two fixed payloads, a
    diagnostic probe of the database collaborator ([test_database]), a static
    lesson catalogue ([list_lessons]) and a keyword-driven intent stub
    ([interpret]) that tries to persist every interaction.

    Python values are modelled as follows.
    - [str] is a list of Unicode code points ([N]); [in], [strip], [lower] and
      slicing are written out on that representation.
    - [float] is the kernel's binary64 type.
    - [Dict[str, Any]] is an association list from [str] to [json].
    - exceptions are explicit: a computation is a function from the mutable
      state it works on to the final state and either a value or the
      exception it raised. *)

From Stdlib Require Import Ascii String.
From Stdlib Require Import List Arith NArith Bool Lia.
From Stdlib Require Import Floats.PrimFloat.
Import ListNotations.

Set Warnings "-inexact-float,-register-all".
Local Open Scope N_scope.

(** ** Python strings *)

Module PyStr.

(** A [str] is its sequence of code points. *)
Definition str := list N.

(** The code points of an ASCII literal of the source. *)
Definition cps (s : string) : str := map N_of_ascii (list_ascii_of_string s).
Arguments cps s%_string.

(** [len(s) == 0], the falsy string. *)
Definition is_empty (s : str) : bool :=
  match s with [] => true | _ :: _ => false end.

(** [s.startswith(w)]. *)
Fixpoint startswith (w s : str) : bool :=
  match w, s with
  | [], _ => true
  | _ :: _, [] => false
  | c :: w', d :: s' => (c =? d) && startswith w' s'
  end.

(** [w in s]: [w] occurs in [s] as a contiguous run of code points. *)
Fixpoint contains (w s : str) : bool :=
  startswith w s ||
  match s with
  | [] => false
  | _ :: s' => contains w s'
  end.

(** [str.isspace] on one code point, CPython's [_PyUnicode_IsWhitespace]. *)
Definition isspace (c : N) : bool :=
  ((0x09 <=? c) && (c <=? 0x0D)) || ((0x1C <=? c) && (c <=? 0x20))
  || (c =? 0x85) || (c =? 0xA0) || (c =? 0x1680)
  || ((0x2000 <=? c) && (c <=? 0x200A))
  || (c =? 0x2028) || (c =? 0x2029) || (c =? 0x202F) || (c =? 0x205F)
  || (c =? 0x3000).

Fixpoint lstrip (s : str) : str :=
  match s with
  | [] => []
  | c :: s' => if isspace c then lstrip s' else s
  end.

Definition rstrip (s : str) : str := rev (lstrip (rev s)).

(** [s.strip()]: leading and trailing white space removed. *)
Definition strip (s : str) : str := rstrip (lstrip s).

Definition is_ascii (c : N) : bool := c <? 128.

Definition ascii_lower (c : N) : N :=
  if (0x41 <=? c) && (c <=? 0x5A) then c + 32 else c.

(** [s[:n]]. *)
Definition slice_to (n : nat) (s : str) : str := firstn n s.

(** [x or d] on strings: the empty string is the only falsy one. *)
Definition or_else (x d : str) : str := if is_empty x then d else x.

(** [bool(s)] for an optional string, as [os.getenv] returns it. *)
Definition truthy (o : option str) : bool :=
  match o with
  | None => false
  | Some s => negb (is_empty s)
  end.

End PyStr.
Import PyStr.

(** ** Values, exceptions and computations *)

Inductive json : Type :=
| JNull
| JBool (b : bool)
| JNum (n : N)
| JStr (s : str)
| JArr (items : list json)
| JObj (fields : list (str * json)).

Definition dict := list (str * json).

(** An instance of [Exception] as the handlers observe it: whether it is an
    [ImportError], whether it is an [AttributeError] (the one class [hasattr]
    swallows), and what [str(e)] gives. *)
Record PyExc : Type := mkExc {
  is_ImportError : bool;
  is_AttributeError : bool;
  exc_text : str
}.

(** What [interpret] itself can let escape. *)
Inductive HandlerExc : Type :=
| HTTPException (status_code : N) (detail : str)
| Uncaught (e : PyExc).

Inductive result (E A : Type) : Type :=
| Returns (a : A)
| Raises (e : E).
Arguments Returns {E A} a.
Arguments Raises {E A} e.

(** A statement sequence working on a mutable state [S] that may raise [E]. *)
Definition M (E S A : Type) : Type := S -> S * result E A.

Definition ret {E S A} (a : A) : M E S A := fun s => (s, Returns a).

Definition bind {E S A B} (m : M E S A) (k : A -> M E S B) : M E S B :=
  fun s =>
    match m s with
    | (s', Returns a) => k a s'
    | (s', Raises e) => (s', Raises e)
    end.

Definition raise {E S A} (e : E) : M E S A := fun s => (s, Raises e).

(** The outcome of a call into a collaborator. *)
Definition call {E S A} (r : result E A) : M E S A := fun s => (s, r).

Definition modify {E S} (f : S -> S) : M E S unit := fun s => (f s, Returns tt).

(** [try: body  except ... as e: handler e]. What [body] did to the state
    before it raised stays done. *)
Definition try_except {E E' S A} (body : M E S A) (handler : E -> M E' S A)
  : M E' S A :=
  fun s =>
    match body s with
    | (s', Returns a) => (s', Returns a)
    | (s', Raises e) => handler e s'
    end.

Notation "x <- m ;; k" := (bind m (fun x => k))
  (at level 61, m at next level, right associativity).
Notation "m ;;; k" := (bind m (fun _ => k))
  (at level 61, right associativity).

(** ** Data model *)

Record Lesson : Type := mkLesson {
  id : str;
  title : str;
  description : str;
  level : str;
  topics : list str
}.

(** The validated request model: [transcript] is a required [str]. *)
Record InterpretRequest : Type := mkInterpretRequest {
  user_id : option str;
  transcript : str;
  context : option dict
}.

Record InterpretResponse : Type := mkInterpretResponse {
  ai_response : str;
  intent : str;
  confidence : float;
  metadata : dict
}.

(** The mapping [interpret] hands to [create_document]. *)
Record Document : Type := mkDocument {
  doc_user_id : option str;
  doc_transcript : str;
  doc_intent : str;
  doc_ai_response : str;
  doc_context : dict;
  doc_created_at : N
}.

(** The dictionary [test_database] builds and returns. *)
Record TestResponse : Type := mkTestResponse {
  backend : str;
  database : str;
  database_url : option str;
  database_name : option str;
  connection_status : str;
  collections : list str
}.

(** ** The collaborators

    [database] is an external module. The handlers see it through what an
    import of one of its names gives and through what its calls return or
    raise. *)

(** The object [database.db]. [db_name] is what a read of its attribute
    [name] does: [None] when there is no such attribute, else the value it
    returns or the exception it raises. *)
Record DbObject : Type := mkDbObject {
  db_name : option (result PyExc str);
  list_collection_names : result PyExc (list str)
}.

(** One call [create_document(collection_name, document)]. *)
Definition PersistCall : Type := (str * Document)%type.

Record Env : Type := mkEnv {
  (** [from database import db]: the import may raise, [db] may be [None]. *)
  import_db : result PyExc (option DbObject);
  (** [from database import create_document]; the function, once imported,
      answers from the calls made before it and its two arguments. *)
  import_create_document :
    result PyExc (list PersistCall -> str -> Document -> result PyExc unit);
  (** [os.getenv]. *)
  getenv : str -> option str;
  (** [datetime.now(timezone.utc)]. *)
  utcnow : N
}.

(** ** Fixed payloads *)

Definition read_root : list (str * str) :=
  [(cps "message", cps "EchoLearn Backend Running")].

Definition hello : list (str * str) :=
  [(cps "message", cps "Hello from EchoLearn backend!")].

(** ** [GET /api/lessons] *)

Definition list_lessons : list Lesson :=
  let lessons :=
    [ mkLesson (cps "voice-basics")
        (cps "Voice Control Basics")
        (cps "Learn to navigate EchoLearn using your voice.")
        (cps "beginner")
        [cps "speech-to-text"; cps "commands"; cps "accessibility"];
      mkLesson (cps "math-fundamentals")
        (cps "Math Fundamentals")
        (cps "Practice arithmetic hands-free with guided prompts.")
        (cps "beginner")
        [cps "numbers"; cps "addition"; cps "subtraction"];
      mkLesson (cps "science-reading")
        (cps "Science Reading Comprehension")
        (cps "Listen to short passages and answer questions by voice.")
        (cps "intermediate")
        [cps "comprehension"; cps "listening"] ] in
  lessons.

(** ** [GET /test] *)

Definition check_mark : str := [0x2705].
Definition cross_mark : str := [0x274C].
Definition warning_sign : str := [0x26A0; 0xFE0F].

Definition set_database (v : str) (r : TestResponse) : TestResponse :=
  mkTestResponse (backend r) v (database_url r) (database_name r)
                 (connection_status r) (collections r).

Definition set_database_url (v : option str) (r : TestResponse) : TestResponse :=
  mkTestResponse (backend r) (database r) v (database_name r)
                 (connection_status r) (collections r).

Definition set_database_name (v : option str) (r : TestResponse) : TestResponse :=
  mkTestResponse (backend r) (database r) (database_url r) v
                 (connection_status r) (collections r).

Definition set_connection_status (v : str) (r : TestResponse) : TestResponse :=
  mkTestResponse (backend r) (database r) (database_url r) (database_name r)
                 v (collections r).

Definition set_collections (v : list str) (r : TestResponse) : TestResponse :=
  mkTestResponse (backend r) (database r) (database_url r) (database_name r)
                 (connection_status r) v.

Definition initial_response : TestResponse :=
  mkTestResponse (check_mark ++ cps " Running")
                 (cross_mark ++ cps " Not Available")
                 None None (cps "Not Connected") [].

(** The inner [try] of the probe: list the collections, keep ten. *)
Definition probe_collections (db : DbObject) : M PyExc TestResponse unit :=
  try_except
    (collections <- call (list_collection_names db) ;;
     modify (set_collections (firstn 10 collections)) ;;;
     modify (set_database (check_mark ++ cps " Connected & Working")))
    (fun e =>
       modify (set_database
                 (warning_sign ++ cps "  Connected but Error: "
                  ++ slice_to 50 (exc_text e)))).

(** [db.name if hasattr(db, 'name') else "... Connected"]. [hasattr] reads the
    attribute: it is false when the attribute is missing or its read raises
    an [AttributeError], and lets any other exception through. *)
Definition name_or_connected (db : DbObject) : result PyExc str :=
  match db_name db with
  | None => Returns (check_mark ++ cps " Connected")
  | Some (Returns v) => Returns v
  | Some (Raises e) =>
      if is_AttributeError e
      then Returns (check_mark ++ cps " Connected")
      else Raises e
  end.

(** The outer [try] of the probe with its two [except] clauses. *)
Definition probe_database (env : Env) : M PyExc TestResponse unit :=
  try_except
    (db <- call (import_db env) ;;
     match db with
     | Some db =>
         modify (set_database (check_mark ++ cps " Available")) ;;;
         modify (set_database_url (Some (check_mark ++ cps " Configured"))) ;;;
         name <- call (name_or_connected db) ;;
         modify (set_database_name (Some name)) ;;;
         modify (set_connection_status (cps "Connected")) ;;;
         probe_collections db
     | None =>
         modify (set_database
                   (warning_sign ++ cps "  Available but not initialized"))
     end)
    (fun e =>
       if is_ImportError e
       then modify (set_database (cross_mark ++ cps " Database module not found"))
       else modify (set_database
                      (cross_mark ++ cps " Error: " ++ slice_to 50 (exc_text e)))).

Definition set_or_not (o : option str) : str :=
  if truthy o then check_mark ++ cps " Set" else cross_mark ++ cps " Not Set".

Definition test_database (env : Env) : result PyExc TestResponse :=
  snd ((probe_database env ;;;
        modify (set_database_url
                  (Some (set_or_not (getenv env (cps "DATABASE_URL"))))) ;;;
        modify (set_database_name
                  (Some (set_or_not (getenv env (cps "DATABASE_NAME"))))) ;;;
        (fun response => (response, Returns response)))
         initial_response).

(** ** [POST /api/interpret] *)

(** The rule chain of [interpret], on the lower-cased transcript. *)
Definition classify_intent (lower : str) : str * str :=
  let intent := cps "general.query" in
  let response_text :=
    cps "I heard you. How can I assist with your learning today?" in
  if existsb (fun w => contains w lower) [cps "start"; cps "begin"; cps "go"]
  then (cps "session.start",
        cps "Starting your learning session. Which lesson would you like? Say 'list lessons' to hear options.")
  else if contains (cps "list") lower && contains (cps "lesson") lower
  then (cps "lesson.list",
        cps "The lessons available are: Voice Control Basics, Math Fundamentals, and Science Reading Comprehension.")
  else if existsb (fun w => contains w lower)
            [cps "math"; cps "add"; cps "subtract"; cps "plus"; cps "minus"]
  then (cps "lesson.math", cps "Let's practice math. What is three plus five?")
  else if existsb (fun w => contains w lower) [cps "stop"; cps "end"; cps "pause"]
  then (cps "session.stop", cps "Okay, pausing. Say 'resume' when you're ready.")
  else if existsb (fun w => contains w lower) [cps "hello"; cps "hi"; cps "hey"]
  then (cps "greeting", cps "Hello! I'm Echo, your hands-free tutor. How can I help?")
  else (intent, response_text).

(** [req.context or {}]. *)
Definition context_or_empty (c : option dict) : dict :=
  match c with
  | None => []
  | Some [] => []
  | Some d => d
  end.

(** The call [create_document(collection, doc)]: it is recorded, and returns
    or raises as the collaborator decides. *)
Definition persist
    (create_document : list PersistCall -> str -> Document -> result PyExc unit)
    (collection : str) (doc : Document) : M PyExc (list PersistCall) unit :=
  fun calls => (calls ++ [(collection, doc)], create_document calls collection doc).

(** A JSON body field: left out, [null], or a value of the declared type.
    A body with a value of another JSON type in a field has no counterpart
    here: what follows speaks of bodies whose fields, where present, are of
    their declared types. *)
Inductive field (A : Type) : Type :=
| Absent
| Null
| Present (a : A).
Arguments Absent {A}.
Arguments Null {A}.
Arguments Present {A} a.

Record InterpretBody : Type := mkInterpretBody {
  body_user_id : field str;
  body_transcript : field str;
  body_context : field dict
}.

(** An [Optional[...] = None] field. *)
Definition optional {A} (f : field A) : option A :=
  match f with
  | Present a => Some a
  | Absent | Null => None
  end.

Definition request_of (b : InterpretBody) (t : str) : InterpretRequest :=
  mkInterpretRequest (optional (body_user_id b)) t (optional (body_context b)).

(** The request model [InterpretRequest] read from a body: [transcript: str]
    has no default and does not admit [None]. The error names the field. *)
Definition validate (b : InterpretBody) : list str + InterpretRequest :=
  match body_transcript b with
  | Present t => inr (request_of b t)
  | Absent | Null => inl [cps "body"; cps "transcript"]
  end.

(** What the framework sends back for a route. *)
Inductive HttpResponse (A : Type) : Type :=
| Ok (body : A)
| ErrorDetail (status : N) (detail : str)
| RequestValidationError (loc : list str)
| InternalServerError.
Arguments Ok {A} body.
Arguments ErrorDetail {A} status detail.
Arguments RequestValidationError {A} loc.
Arguments InternalServerError {A}.

Definition status {A} (r : HttpResponse A) : N :=
  match r with
  | Ok _ => 200
  | ErrorDetail s _ => s
  | RequestValidationError _ => 422
  | InternalServerError => 500
  end.

Section Interpret.

(** [str.lower] on a string that has a code point outside ASCII follows
    the Unicode case tables of the interpreter. *)
Variable unicode_lower : str -> str.

(** [s.lower()]. *)
Definition lower (s : str) : str :=
  if forallb is_ascii s then map ascii_lower s else unicode_lower s.

Definition interpret (env : Env) (req : InterpretRequest)
  : M HandlerExc (list PersistCall) InterpretResponse :=
  let transcript := strip (or_else (transcript req) []) in
  if is_empty transcript
  then raise (HTTPException 400 (cps "Transcript is required"))
  else
    let '(intent, response_text) := classify_intent (lower transcript) in
    try_except
      (create_document <- call (import_create_document env) ;;
       let doc :=
         mkDocument (user_id req) transcript intent response_text
                    (context_or_empty (context req)) (utcnow env) in
       persist create_document (cps "interaction") doc)
      (fun _ => ret tt) ;;;
    ret (mkInterpretResponse response_text intent 0.72 []).

(** The route: the body is validated against the request model before
    [interpret] runs; an [HTTPException] becomes its status and detail. *)
Definition post_interpret (env : Env) (body : InterpretBody)
    (calls : list PersistCall)
  : list PersistCall * HttpResponse InterpretResponse :=
  match validate body with
  | inl loc => (calls, RequestValidationError loc)
  | inr req =>
      match interpret env req calls with
      | (calls', Returns r) => (calls', Ok r)
      | (calls', Raises (HTTPException s d)) => (calls', ErrorDetail s d)
      | (calls', Raises (Uncaught _)) => (calls', InternalServerError)
      end
  end.

End Interpret.

(** The routes without a body. *)
Definition get_test (env : Env) : HttpResponse TestResponse :=
  match test_database env with
  | Returns r => Ok r
  | Raises _ => InternalServerError
  end.

Definition get_lessons : HttpResponse (list Lesson) := Ok list_lessons.

(** ** The application: one request, one response *)

Inductive Request : Type :=
| GetRoot
| GetHello
| GetTest
| GetLessons
| PostInterpret (body : InterpretBody).

Inductive Payload : Type :=
| Message (m : list (str * str))
| Diagnostic (r : TestResponse)
| Lessons (l : list Lesson)
| Interpreted (r : InterpretResponse).

Definition with_body {A B} (f : A -> B) (r : HttpResponse A) : HttpResponse B :=
  match r with
  | Ok a => Ok (f a)
  | ErrorDetail s d => ErrorDetail s d
  | RequestValidationError loc => RequestValidationError loc
  | InternalServerError => InternalServerError
  end.

(** [app]: the routes as the decorators bind them. The state threaded
    through is the list of calls made to [create_document] so far. *)
Definition app (unicode_lower : str -> str) (env : Env) (rq : Request)
    (calls : list PersistCall) : list PersistCall * HttpResponse Payload :=
  match rq with
  | GetRoot => (calls, Ok (Message read_root))
  | GetHello => (calls, Ok (Message hello))
  | GetTest => (calls, with_body Diagnostic (get_test env))
  | GetLessons => (calls, with_body Lessons get_lessons)
  | PostInterpret body =>
      let '(calls', r) := post_interpret unicode_lower env body calls in
      (calls', with_body Interpreted r)
  end.

(** ** The classifier as the specification words it

    An ordered table of keyword predicates, each bound to a reply; the reply
    of the first predicate that holds is returned, the default one when none
    does. *)

Inductive predicate : Type :=
| AnyOf (keywords : list str)
| AllOf (keywords : list str).

Definition holds (p : predicate) (s : str) : bool :=
  match p with
  | AnyOf ws => existsb (fun w => contains w s) ws
  | AllOf ws => forallb (fun w => contains w s) ws
  end.

Definition keyword_rules : list (predicate * (str * str)) :=
  [ (AnyOf [cps "start"; cps "begin"; cps "go"],
     (cps "session.start",
      cps "Starting your learning session. Which lesson would you like? Say 'list lessons' to hear options."));
    (AllOf [cps "list"; cps "lesson"],
     (cps "lesson.list",
      cps "The lessons available are: Voice Control Basics, Math Fundamentals, and Science Reading Comprehension."));
    (AnyOf [cps "math"; cps "add"; cps "subtract"; cps "plus"; cps "minus"],
     (cps "lesson.math", cps "Let's practice math. What is three plus five?"));
    (AnyOf [cps "stop"; cps "end"; cps "pause"],
     (cps "session.stop", cps "Okay, pausing. Say 'resume' when you're ready."));
    (AnyOf [cps "hello"; cps "hi"; cps "hey"],
     (cps "greeting", cps "Hello! I'm Echo, your hands-free tutor. How can I help?")) ].

Definition default_reply : str * str :=
  (cps "general.query",
   cps "I heard you. How can I assist with your learning today?").

Fixpoint first_match (rules : list (predicate * (str * str)))
    (default : str * str) (s : str) : str * str :=
  match rules with
  | [] => default
  | (p, reply) :: rest => if holds p s then reply else first_match rest default s
  end.

(** The closed set of intent labels. *)
Definition intent_labels : list str :=
  [cps "session.start"; cps "lesson.list"; cps "lesson.math";
   cps "session.stop"; cps "greeting"; cps "general.query"].

(** White space only, the empty string included. *)
Definition blank (s : str) : bool := forallb isspace s.

(** The document [interpret] builds for a request. *)
Definition interaction_of (unicode_lower : str -> str) (env : Env)
    (req : InterpretRequest) : Document :=
  let t := strip (transcript req) in
  let reply := classify_intent (lower unicode_lower t) in
  mkDocument (user_id req) t (fst reply) (snd reply)
             (context_or_empty (context req)) (utcnow env).

(** The reply of a successful [interpret]. *)
Definition reply_of (unicode_lower : str -> str) (t : str) : InterpretResponse :=
  let reply := classify_intent (lower unicode_lower (strip t)) in
  mkInterpretResponse (snd reply) (fst reply) 0.72 [].

(** The calls [interpret] adds for a request it accepts: one when
    [create_document] could be imported, whether or not it then raised. *)
Definition attempted (unicode_lower : str -> str) (env : Env)
    (req : InterpretRequest) : list PersistCall :=
  match import_create_document env with
  | Returns _ => [(cps "interaction", interaction_of unicode_lower env req)]
  | Raises _ => []
  end.

(** ** Environments to run the handlers in *)

(** A case table for runs on ASCII input, where [lower] never consults it. *)
Definition no_case_table : str -> str := fun s => s.

(** No [database] module at all. *)
Definition env_no_module : Env :=
  mkEnv (Raises (mkExc true false (cps "No module named 'database'")))
        (Raises (mkExc true false (cps "No module named 'database'")))
        (fun _ => None) 0.

(** A store that refuses every write, behind a database whose listing fails
    with a message of 60 characters. *)
Definition env_failing : Env :=
  mkEnv (Returns (Some (mkDbObject
           (Some (Returns (cps "echolearn")))
           (Raises (mkExc false false
              (cps "012345678901234567890123456789012345678901234567890123456789"))))))
        (Returns (fun _ _ _ => Raises (mkExc false false (cps "connection refused"))))
        (fun _ => Some (cps "mongodb://localhost")) 0.

(** A store that accepts every write, with twelve collections. *)
Definition env_working : Env :=
  mkEnv (Returns (Some (mkDbObject
           (Some (Returns (cps "echolearn")))
           (Returns (map (fun c => [c]) [97; 98; 99; 100; 101; 102; 103; 104; 105; 106; 107; 108])))))
        (Returns (fun _ _ _ => Returns tt))
        (fun _ => Some (cps "mongodb://localhost")) 0.

Definition body_of (t : field str) : InterpretBody :=
  mkInterpretBody Absent t Absent.

(** ** Vocabulary of the further properties *)

(** [any(w in lower for w in ws)]. *)
Definition mentions_any (ws : list str) (l : str) : bool :=
  existsb (fun w => contains w l) ws.

Definition start_words : list str := [cps "start"; cps "begin"; cps "go"].

Definition math_words : list str :=
  [cps "math"; cps "add"; cps "subtract"; cps "plus"; cps "minus"].

Definition stop_words : list str := [cps "stop"; cps "end"; cps "pause"].

Definition greeting_words : list str := [cps "hello"; cps "hi"; cps "hey"].

(** No white space at either end. *)
Definition trimmed (s : str) : Prop :=
  forall c : N,
    hd_error s = Some c \/ hd_error (rev s) = Some c -> isspace c = false.

(** A database object whose [name] attribute raises an [ImportError] when
    read, as a lazily importing property does. *)
Definition env_lazy_name : Env :=
  mkEnv (Returns (Some (mkDbObject
           (Some (Raises (mkExc true false (cps "No module named 'pymongo'"))))
           (Returns [cps "interaction"]))))
        (Returns (fun _ _ _ => Returns tt))
        (fun _ => None) 0.

(** The calls a request added to those made before it. *)
Definition new_calls (before after : list PersistCall) : list PersistCall :=
  skipn (length before) after.

(** A database object whose [name] property raises an [AttributeError]. *)
Definition env_name_unreadable : Env :=
  mkEnv (Returns (Some (mkDbObject
           (Some (Raises (mkExc false true (cps "no name"))))
           (Returns [cps "interaction"]))))
        (Returns (fun _ _ _ => Returns tt))
        (fun _ => None) 0.

(** * Properties *)

(** ** Strings *)

Lemma startswith_prefix (w s : str) :
  startswith w s = true <-> exists q, s = w ++ q.
Proof.
  revert s; induction w as [|c w IH]; intros s; simpl.
  - split; [intros _; now exists s | reflexivity].
  - destruct s as [|d s].
    + split; [discriminate | intros [q Hq]; discriminate].
    + rewrite andb_true_iff, N.eqb_eq, IH. split.
      * intros [-> [q ->]]. now exists q.
      * intros [q Hq]. injection Hq as -> ->. split; [reflexivity | now exists q].
Qed.

(** [w in s] is occurrence as a contiguous run, wherever it starts. *)
Lemma contains_substring (w s : str) :
  contains w s = true <-> exists p q, s = p ++ w ++ q.
Proof.
  induction s as [|d s IH].
  - simpl. rewrite orb_false_r, startswith_prefix. split.
    + intros [q Hq]. now exists [], q.
    + intros [p [q Hq]]. destruct p; [now exists q | discriminate].
  - simpl. rewrite orb_true_iff, startswith_prefix, IH. split.
    + intros [[q Hq] | [p [q Hq]]].
      * now exists [], q.
      * exists (d :: p), q. simpl. now rewrite Hq.
    + intros [p [q Hq]]. destruct p as [|c p].
      * left. now exists q.
      * right. injection Hq as _ Hq. now exists p, q.
Qed.

Lemma lstrip_blank (s : str) : blank s = true -> lstrip s = [].
Proof.
  unfold blank. induction s as [|c s IH]; simpl; [reflexivity|].
  intros H. apply andb_true_iff in H as [Hc Hs]. rewrite Hc. now apply IH.
Qed.

Lemma strip_blank (s : str) : blank s = true -> strip s = [].
Proof.
  intros H. unfold strip, rstrip. now rewrite (lstrip_blank s H).
Qed.

Lemma lstrip_empty_blank (s : str) : lstrip s = [] -> blank s = true.
Proof.
  unfold blank. induction s as [|c s IH]; simpl; [reflexivity|].
  destruct (isspace c); [exact IH | discriminate].
Qed.

Lemma lstrip_head (s : str) :
  lstrip s = [] \/ exists c r, lstrip s = c :: r /\ isspace c = false.
Proof.
  induction s as [|c s IH]; simpl; [now left|].
  destruct (isspace c) eqn:E; [exact IH | right; now exists c, s].
Qed.

Lemma lstrip_keeps_last (a : str) (x : N) :
  isspace x = false -> lstrip (a ++ [x]) <> [].
Proof.
  intros Hx. induction a as [|c a IH]; simpl.
  - now rewrite Hx.
  - destruct (isspace c); [exact IH | discriminate].
Qed.

(** [strip] leaves nothing exactly when the string is blank. *)
Lemma strip_empty_iff (s : str) : is_empty (strip s) = true <-> blank s = true.
Proof.
  split.
  - intros H. destruct (lstrip_head s) as [E | [c [r [E Hc]]]].
    + now apply lstrip_empty_blank.
    + exfalso. unfold strip, rstrip in H. rewrite E in H. simpl rev in H.
      pose proof (lstrip_keeps_last (rev r) c Hc) as Hne.
      destruct (lstrip (rev r ++ [c])) as [|y l]; [now apply Hne|].
      simpl in H. destruct (rev l); discriminate.
  - intros H. now rewrite strip_blank.
Qed.

Lemma or_else_empty (x : str) : or_else x [] = x.
Proof. now destruct x. Qed.

(** ** [interpret], run *)

Section InterpretFacts.

Variable unicode_lower : str -> str.
Variable env : Env.

Lemma interpret_blank (req : InterpretRequest) (calls : list PersistCall) :
  blank (transcript req) = true ->
  interpret unicode_lower env req calls =
    (calls, Raises (HTTPException 400 (cps "Transcript is required"))).
Proof.
  intros H. unfold interpret. rewrite or_else_empty.
  apply strip_empty_iff in H. now rewrite H.
Qed.

Lemma interpret_accepts (req : InterpretRequest) (calls : list PersistCall) :
  blank (transcript req) = false ->
  interpret unicode_lower env req calls =
    (calls ++ attempted unicode_lower env req,
     Returns (reply_of unicode_lower (transcript req))).
Proof.
  intros H. unfold interpret, attempted, reply_of, interaction_of.
  rewrite or_else_empty.
  destruct (is_empty (strip (transcript req))) eqn:E.
  - apply strip_empty_iff in E. congruence.
  - destruct (classify_intent _) as [i r]. simpl fst; simpl snd.
    unfold bind, try_except, call, persist, ret.
    destruct (import_create_document env) as [f | e].
    + destruct (f calls _ _); reflexivity.
    + now rewrite app_nil_r.
Qed.

End InterpretFacts.

(** ** The classifier *)

Lemma first_match_chain (l : str) :
  classify_intent l = first_match keyword_rules default_reply l.
Proof.
  unfold classify_intent, keyword_rules, default_reply.
  cbn [first_match holds forallb].
  rewrite andb_true_r. reflexivity.
Qed.

(** [first_match] answers with the first rule that holds ... *)
Lemma first_match_first rules default s pre p reply post :
  rules = pre ++ (p, reply) :: post ->
  (forall r, In r pre -> holds (fst r) s = false) ->
  holds p s = true ->
  first_match rules default s = reply.
Proof.
  intros -> Hpre Hp. induction pre as [|[p0 r0] pre IH]; simpl.
  - now rewrite Hp.
  - pose proof (Hpre (p0, r0) (or_introl eq_refl)) as H0. simpl in H0.
    rewrite H0. apply IH. intros r Hr. apply Hpre. now right.
Qed.

(** ... and with the default when none does. *)
Lemma first_match_none rules default s :
  (forall r, In r rules -> holds (fst r) s = false) ->
  first_match rules default s = default.
Proof.
  induction rules as [|[p0 r0] rules IH]; intros H; simpl; [reflexivity|].
  pose proof (H (p0, r0) (or_introl eq_refl)) as H0. simpl in H0.
  rewrite H0. apply IH. intros r Hr. apply H. now right.
Qed.

Lemma classify_intent_label (l : str) :
  In (fst (classify_intent l)) intent_labels.
Proof.
  unfold classify_intent, intent_labels.
  repeat match goal with
         | |- context [if ?b then _ else _] => destruct b
         end;
    cbn [fst In]; auto 10.
Qed.

Lemma ascii_lower_letter (c : N) :
  (0x41 <= c <= 0x5A -> ascii_lower c = c + 32)
  /\ (~ 0x41 <= c <= 0x5A -> ascii_lower c = c).
Proof.
  unfold ascii_lower.
  destruct (N.leb_spec 0x41 c); destruct (N.leb_spec c 0x5A); cbn [andb];
    split; intros; try reflexivity; lia.
Qed.

Lemma interpret_example (unicode_lower : str -> str) (env : Env)
    (t : str) (calls : list PersistCall) :
  blank t = false ->
  snd (post_interpret unicode_lower env (body_of (Present t)) calls)
  = Ok (reply_of unicode_lower t).
Proof.
  intros H. unfold post_interpret, validate, body_of, request_of.
  cbn [body_transcript body_user_id body_context optional].
  now rewrite interpret_accepts.
Qed.

(** C1: [interpret] lower-cases the (stripped) transcript and answers with the
    reply bound to the first predicate that holds, in the order start/begin/go,
    list and lesson, the math words, stop/end/pause, the greetings, and with
    the default [general.query] reply when none holds. Lower-casing maps
    [A]-[Z] to [a]-[z] on an ASCII string and follows the case tables on any
    other. On "hello, let's start math", in lower or in upper case, the
    intent is [session.start]. *)
Theorem classifier_first_match (unicode_lower : str -> str) :
  (forall transcript : str,
      classify_intent (lower unicode_lower transcript)
      = first_match keyword_rules default_reply (lower unicode_lower transcript))
  /\ fst (classify_intent (lower unicode_lower (cps "hello, let's start math")))
     = cps "session.start"
  /\ (forall (env : Env) (req : InterpretRequest) (calls : list PersistCall),
         blank (transcript req) = false ->
         snd (interpret unicode_lower env req calls)
         = Returns
             (mkInterpretResponse
                (snd (first_match keyword_rules default_reply
                        (lower unicode_lower (strip (transcript req)))))
                (fst (first_match keyword_rules default_reply
                        (lower unicode_lower (strip (transcript req)))))
                0.72 []))
  /\ (forall s : str,
         lower unicode_lower s
         = if forallb is_ascii s then map ascii_lower s else unicode_lower s)
  /\ (forall c : N,
         (0x41 <= c <= 0x5A -> ascii_lower c = c + 32)
         /\ (~ 0x41 <= c <= 0x5A -> ascii_lower c = c))
  /\ lower unicode_lower (cps "Hello, Let's START Math")
     = cps "hello, let's start math"
  /\ map fst keyword_rules
     = [ AnyOf [cps "start"; cps "begin"; cps "go"];
         AllOf [cps "list"; cps "lesson"];
         AnyOf [cps "math"; cps "add"; cps "subtract"; cps "plus"; cps "minus"];
         AnyOf [cps "stop"; cps "end"; cps "pause"];
         AnyOf [cps "hello"; cps "hi"; cps "hey"] ]
  /\ map (fun rule => fst (snd rule)) keyword_rules
     = [ cps "session.start"; cps "lesson.list"; cps "lesson.math";
         cps "session.stop"; cps "greeting" ]
  /\ default_reply
     = (cps "general.query",
        cps "I heard you. How can I assist with your learning today?")
  /\ (forall (l : str) pre p reply post,
         keyword_rules = pre ++ (p, reply) :: post ->
         (forall r, In r pre -> holds (fst r) l = false) ->
         holds p l = true ->
         classify_intent l = reply)
  /\ (forall l : str,
         (forall r, In r keyword_rules -> holds (fst r) l = false) ->
         classify_intent l = default_reply)
  /\ (forall (env : Env) (calls : list PersistCall),
         snd (post_interpret unicode_lower env
                (body_of (Present (cps "hello, let's start math"))) calls)
         = Ok (mkInterpretResponse
                 (cps "Starting your learning session. Which lesson would you like? Say 'list lessons' to hear options.")
                 (cps "session.start") 0.72 []))
  /\ (forall (env : Env) (calls : list PersistCall),
         snd (post_interpret unicode_lower env
                (body_of (Present (cps "  HELLO, Let's START Math "))) calls)
         = Ok (mkInterpretResponse
                 (cps "Starting your learning session. Which lesson would you like? Say 'list lessons' to hear options.")
                 (cps "session.start") 0.72 [])).
Proof.
  split; [intros t; apply first_match_chain|].
  split; [vm_compute; reflexivity|].
  split.
  { intros env req calls H. rewrite interpret_accepts by exact H.
    unfold reply_of. now rewrite first_match_chain. }
  split; [reflexivity|].
  split; [apply ascii_lower_letter|].
  split; [vm_compute; reflexivity|].
  split; [reflexivity|].
  split; [reflexivity|].
  split; [reflexivity|].
  split.
  { intros l pre p reply post E Hpre Hp. rewrite first_match_chain.
    now apply (first_match_first _ _ _ pre p reply post). }
  split.
  { intros l H. rewrite first_match_chain. now apply first_match_none. }
  split; intros env calls;
    (rewrite interpret_example by (vm_compute; reflexivity);
     vm_compute; reflexivity).
Qed.

(** C8: "what is 2 plus 2" is classified [lesson.math], with the reply
    "Let's practice math. What is three plus five?". *)
Theorem two_plus_two_is_math (unicode_lower : str -> str) :
  classify_intent (lower unicode_lower (strip (cps "what is 2 plus 2")))
  = (cps "lesson.math", cps "Let's practice math. What is three plus five?").
Proof. vm_compute. reflexivity. Qed.

(** C10: the keyword tests are containment tests, not whole-word matches:
    "category" holds "go" inside a longer word and is classified
    [session.start]; "this" holds "hi" and is classified [greeting]. *)
Theorem keywords_match_inside_words (unicode_lower : str -> str) :
  (forall w p q : str, contains w (p ++ w ++ q) = true)
  /\ cps "category" = cps "cate" ++ cps "go" ++ cps "ry"
  /\ fst (classify_intent (lower unicode_lower (cps "category")))
     = cps "session.start"
  /\ cps "this" = cps "t" ++ cps "hi" ++ cps "s"
  /\ fst (classify_intent (lower unicode_lower (cps "this"))) = cps "greeting".
Proof.
  repeat split; try (vm_compute; reflexivity).
  intros w p q. apply contains_substring. now exists p, q.
Qed.

(** ** The lesson catalogue *)

(** C5: [GET /api/lessons] answers 200 with exactly three lessons,
    [voice-basics], [math-fundamentals], [science-reading] in that order,
    whatever the environment and whatever was served before. *)
Theorem lessons_fixed :
  length list_lessons = 3%nat
  /\ map id list_lessons
     = [cps "voice-basics"; cps "math-fundamentals"; cps "science-reading"]
  /\ forall (unicode_lower : str -> str) (env : Env) (calls : list PersistCall),
       app unicode_lower env GetLessons calls = (calls, Ok (Lessons list_lessons)).
Proof. repeat split. Qed.

(** ** [POST /api/interpret] *)

Lemma post_interpret_run (unicode_lower : str -> str) (env : Env)
    (body : InterpretBody) (calls : list PersistCall) :
  post_interpret unicode_lower env body calls =
    match body_transcript body with
    | Present t =>
        if blank t
        then (calls, ErrorDetail 400 (cps "Transcript is required"))
        else (calls ++ attempted unicode_lower env (request_of body t),
              Ok (reply_of unicode_lower t))
    | Absent | Null => (calls, RequestValidationError [cps "body"; cps "transcript"])
    end.
Proof.
  unfold post_interpret, validate.
  destruct (body_transcript body) as [| |t]; try reflexivity.
  destruct (blank t) eqn:E.
  - now rewrite interpret_blank.
  - now rewrite interpret_accepts.
Qed.

(** C2: for a transcript that is not blank, the answer is 200 with the
    classifier's intent and reply whatever the persistence collaborator does:
    the answer under an environment whose [create_document] raises is the
    answer under any other environment. *)
Theorem persistence_failure_is_silent (unicode_lower : str -> str)
    (env env' : Env) (body : InterpretBody) (calls calls' : list PersistCall)
    (t : str) :
  body_transcript body = Present t ->
  blank t = false ->
  snd (post_interpret unicode_lower env body calls)
  = Ok (mkInterpretResponse
          (snd (classify_intent (lower unicode_lower (strip t))))
          (fst (classify_intent (lower unicode_lower (strip t))))
          0.72 [])
  /\ status (snd (post_interpret unicode_lower env body calls)) = 200
  /\ snd (post_interpret unicode_lower env body calls)
     = snd (post_interpret unicode_lower env' body calls').
Proof.
  intros Hb Ht. rewrite !post_interpret_run, Hb, Ht. now repeat split.
Qed.

(** C3: a transcript that is present but empty or white space only is
    answered 400 with detail "Transcript is required", and no call to
    [create_document] is made. *)
Theorem blank_transcript_rejected (unicode_lower : str -> str) (env : Env)
    (body : InterpretBody) (calls : list PersistCall) (t : str) :
  body_transcript body = Present t ->
  blank t = true ->
  post_interpret unicode_lower env body calls
  = (calls, ErrorDetail 400 (cps "Transcript is required"))
  /\ status (snd (post_interpret unicode_lower env body calls)) = 400.
Proof.
  intros Hb Ht. rewrite !post_interpret_run, Hb, Ht. now split.
Qed.

(** C4, as the code has it: a body without the [transcript] field fails the
    validation of the request model; the answer is the client error 422,
    [interpret] is not run and nothing is persisted. *)
Theorem missing_transcript_unprocessable (unicode_lower : str -> str)
    (env : Env) (body : InterpretBody) (calls : list PersistCall) :
  body_transcript body = Absent ->
  post_interpret unicode_lower env body calls
  = (calls, RequestValidationError [cps "body"; cps "transcript"])
  /\ status (snd (post_interpret unicode_lower env body calls)) = 422.
Proof.
  intros Hb. rewrite !post_interpret_run, Hb. now split.
Qed.

(** C6: every 200 answer of [POST /api/interpret] has confidence 0.72 and an
    empty metadata mapping. *)
Theorem confidence_and_metadata_fixed (unicode_lower : str -> str) (env : Env)
    (body : InterpretBody) (calls : list PersistCall) (r : InterpretResponse) :
  snd (post_interpret unicode_lower env body calls) = Ok r ->
  confidence r = 0.72%float /\ metadata r = [].
Proof.
  rewrite post_interpret_run.
  destruct (body_transcript body) as [| |t]; try discriminate.
  destruct (blank t); try discriminate.
  simpl. intros H. injection H as <-. now split.
Qed.

(** C7: the classifier's label is one of the six intents, so is the intent of
    every 200 answer and of every record handed to [create_document]; and
    every such record has a transcript that is not empty. *)
Theorem intent_closed_and_transcript_nonempty (unicode_lower : str -> str) :
  (forall l : str, In (fst (classify_intent l)) intent_labels)
  /\ (forall (env : Env) (body : InterpretBody) (calls : list PersistCall),
         match snd (post_interpret unicode_lower env body calls) with
         | Ok r => In (intent r) intent_labels
         | _ => True
         end)
  /\ (forall (env : Env) (body : InterpretBody) (calls : list PersistCall),
         exists added : list PersistCall,
           fst (post_interpret unicode_lower env body calls) = calls ++ added
           /\ Forall (fun c : PersistCall =>
                        fst c = cps "interaction"
                        /\ In (doc_intent (snd c)) intent_labels
                        /\ doc_transcript (snd c) <> [])
                     added).
Proof.
  split; [|split].
  - apply classify_intent_label.
  - intros env body calls. rewrite post_interpret_run.
    destruct (body_transcript body) as [| |t]; try exact I.
    destruct (blank t); [exact I|]. simpl. apply classify_intent_label.
  - intros env body calls. rewrite post_interpret_run.
    destruct (body_transcript body) as [| |t];
      try (exists []; split; [now rewrite app_nil_r | constructor]).
    destruct (blank t) eqn:E;
      [exists []; split; [now rewrite app_nil_r | constructor]|].
    exists (attempted unicode_lower env (request_of body t)).
    split; [reflexivity|].
    unfold attempted. destruct (import_create_document env); [|constructor].
    constructor; [|constructor]. simpl. repeat split.
    + apply classify_intent_label.
    + intros H. assert (is_empty (strip t) = true) as H' by now rewrite H.
      apply strip_empty_iff in H'. congruence.
Qed.

(** ** [GET /test] *)

Lemma slice_to_length (n : nat) (s : str) : (length (slice_to n s) <= n)%nat.
Proof. unfold slice_to. apply firstn_le_length. Qed.

(** [s[:n]] is the start of [s]. *)
Lemma slice_to_prefix (n : nat) (s : str) :
  exists rest : str, s = slice_to n s ++ rest.
Proof. exists (skipn n s). symmetry. apply firstn_skipn. Qed.

Ltac probe_reported :=
  eexists;
  split; [reflexivity|];
  split; [reflexivity|];
  split; [reflexivity|];
  split; [cbn -[cps firstn slice_to app];
          first [apply firstn_le_length | apply Nat.le_0_l]|];
  split; [cbn -[cps firstn slice_to app]; repeat split|];
  intros x; split; [apply slice_to_length | apply slice_to_prefix].

(** C9: [GET /test] always answers 200. Whatever raises is caught and shown
    in the [database] field: an exception of the import or of the read of
    [db.name] as "Database module not found" when it is an [ImportError] and
    else as "Error: " and the first 50 code points of its own text; an
    exception of the listing as "Connected but Error: " and the first 50
    code points of its own text; a [db] that is [None] as "Available but not
    initialized". [collections] holds at most 10 names, the first ten of the
    listing when it returns. *)
Theorem test_database_never_raises (env : Env) :
  exists r : TestResponse,
    test_database env = Returns r
    /\ get_test env = Ok r
    /\ status (get_test env) = 200
    /\ (length (collections r) <= 10)%nat
    /\ match import_db env with
       | Raises e =>
           database r
           = if is_ImportError e
             then cross_mark ++ cps " Database module not found"
             else cross_mark ++ cps " Error: " ++ slice_to 50 (exc_text e)
       | Returns None =>
           database r = warning_sign ++ cps "  Available but not initialized"
       | Returns (Some db) =>
           match name_or_connected db with
           | Raises e =>
               database r
               = if is_ImportError e
                 then cross_mark ++ cps " Database module not found"
                 else cross_mark ++ cps " Error: " ++ slice_to 50 (exc_text e)
           | Returns _ =>
               match list_collection_names db with
               | Raises e =>
                   database r
                   = warning_sign ++ cps "  Connected but Error: "
                     ++ slice_to 50 (exc_text e)
               | Returns cols =>
                   database r = check_mark ++ cps " Connected & Working"
                   /\ collections r = firstn 10 cols
               end
           end
       end
    /\ forall e : PyExc,
         (length (slice_to 50 (exc_text e)) <= 50)%nat
         /\ exists rest : str, exc_text e = slice_to 50 (exc_text e) ++ rest.
Proof.
  unfold get_test, test_database, probe_database, probe_collections,
    bind, try_except, call, modify, ret.
  destruct (import_db env) as [[db|] | e]; cbn -[cps firstn app slice_to].
  - destruct (name_or_connected db) as [name | e]; cbn -[cps firstn app slice_to].
    + destruct (list_collection_names db) as [cols | e];
        cbn -[cps firstn app slice_to]; probe_reported.
    + destruct (is_ImportError e); cbn -[cps firstn app slice_to];
        probe_reported.
  - probe_reported.
  - destruct (is_ImportError e); cbn -[cps firstn app slice_to]; probe_reported.
Qed.

(** ** Runs *)

Example probe_without_module :
  test_database env_no_module
  = Returns (mkTestResponse
               (check_mark ++ cps " Running")
               (cross_mark ++ cps " Database module not found")
               (Some (cross_mark ++ cps " Not Set"))
               (Some (cross_mark ++ cps " Not Set"))
               (cps "Not Connected") []).
Proof. vm_compute. reflexivity. Qed.

(** A text of 60 characters is cut to its first 50. *)
Example probe_listing_fails :
  test_database env_failing
  = Returns (mkTestResponse
               (check_mark ++ cps " Running")
               (warning_sign ++ cps "  Connected but Error: "
                ++ cps "01234567890123456789012345678901234567890123456789")
               (Some (check_mark ++ cps " Set"))
               (Some (check_mark ++ cps " Set"))
               (cps "Connected") []).
Proof. vm_compute. reflexivity. Qed.

(** Of twelve collections ten are reported. *)
Example probe_working :
  match test_database env_working with
  | Returns r =>
      database r = check_mark ++ cps " Connected & Working"
      /\ collections r = map (fun c => [c]) [97; 98; 99; 100; 101; 102; 103; 104; 105; 106]
  | Raises _ => False
  end.
Proof. vm_compute. split; reflexivity. Qed.

(** A refused write is attempted once and leaves the answer as it is. *)
Example refused_write :
  post_interpret no_case_table env_failing
                 (body_of (Present (cps "  Hello there "))) []
  = ([(cps "interaction",
       mkDocument None (cps "Hello there") (cps "greeting")
                  (cps "Hello! I'm Echo, your hands-free tutor. How can I help?")
                  [] 0)],
     Ok (mkInterpretResponse
           (cps "Hello! I'm Echo, your hands-free tutor. How can I help?")
           (cps "greeting") 0.72 [])).
Proof. vm_compute. reflexivity. Qed.

Lemma persistence_failure_is_silent_witness :
  blank (cps "what is 2 plus 2") = false
  /\ snd (post_interpret no_case_table env_failing
                         (body_of (Present (cps "what is 2 plus 2"))) [])
     = snd (post_interpret no_case_table env_working
                           (body_of (Present (cps "what is 2 plus 2"))) []).
Proof.
  split; [reflexivity|].
  apply (persistence_failure_is_silent no_case_table env_failing env_working
           (body_of (Present (cps "what is 2 plus 2"))) [] []
           (cps "what is 2 plus 2"));
    reflexivity.
Defined.

Lemma blank_transcript_rejected_witness :
  blank (cps "   ") = true
  /\ post_interpret no_case_table env_working (body_of (Present (cps "   "))) []
     = ([], ErrorDetail 400 (cps "Transcript is required")).
Proof.
  split; [reflexivity|].
  apply (blank_transcript_rejected no_case_table env_working
           (body_of (Present (cps "   "))) [] (cps "   "));
    reflexivity.
Defined.

Lemma missing_transcript_unprocessable_witness :
  body_transcript (body_of Absent) = Absent
  /\ status (snd (post_interpret no_case_table env_working (body_of Absent) []))
     = 422.
Proof.
  split; [reflexivity|].
  apply (missing_transcript_unprocessable no_case_table env_working
           (body_of Absent) []);
    reflexivity.
Defined.

(** A body without [transcript] is not answered 400. *)
Lemma missing_transcript_is_not_400 :
  body_transcript (body_of Absent) = Absent
  /\ status (snd (post_interpret no_case_table env_working (body_of Absent) []))
     <> 400.
Proof. split; [reflexivity | vm_compute; discriminate]. Qed.

Lemma confidence_and_metadata_fixed_witness :
  confidence (reply_of no_case_table (cps "list the lessons")) = 0.72%float
  /\ metadata (reply_of no_case_table (cps "list the lessons")) = [].
Proof.
  apply (confidence_and_metadata_fixed no_case_table env_failing
           (body_of (Present (cps "list the lessons"))) []
           (reply_of no_case_table (cps "list the lessons"))).
  reflexivity.
Defined.

(** * Further properties *)

(** ** White space *)

Lemma blank_app (a b : str) : blank (a ++ b) = blank a && blank b.
Proof. unfold blank. apply forallb_app. Qed.

Lemma blank_rev (a : str) : blank (rev a) = blank a.
Proof.
  induction a as [|c a IH]; [reflexivity|].
  simpl rev. rewrite blank_app, IH. unfold blank. simpl.
  rewrite andb_true_r. apply andb_comm.
Qed.

(** [lstrip] drops a blank prefix and nothing else. *)
Lemma lstrip_split (s : str) :
  exists p : str, s = p ++ lstrip s /\ blank p = true.
Proof.
  induction s as [|c s [p [Hs Hp]]]; [now exists []|].
  simpl. destruct (isspace c) eqn:E.
  - exists (c :: p). split; [simpl; now rewrite <- Hs|].
    unfold blank in *. simpl. now rewrite E.
  - now exists [].
Qed.

Lemma rstrip_split (s : str) :
  exists q : str, s = rstrip s ++ q /\ blank q = true.
Proof.
  unfold rstrip. destruct (lstrip_split (rev s)) as [p [Hs Hp]].
  exists (rev p). split; [|now rewrite blank_rev].
  rewrite <- rev_app_distr, <- Hs. symmetry. apply rev_involutive.
Qed.

(** [strip] cuts a blank prefix and a blank suffix off the string. *)
Lemma strip_split (s : str) :
  exists p q : str, s = p ++ strip s ++ q /\ blank p = true /\ blank q = true.
Proof.
  unfold strip. destruct (lstrip_split s) as [p [Hs Hp]].
  destruct (rstrip_split (lstrip s)) as [q [Ht Hq]].
  exists p, q. repeat split; try assumption.
  now rewrite <- Ht.
Qed.

Lemma lstrip_fixed (c : N) (r : str) :
  isspace c = false -> lstrip (c :: r) = c :: r.
Proof. intros H. simpl. now rewrite H. Qed.

Lemma lstrip_ends (a : str) (c : N) :
  isspace c = false -> exists q : str, lstrip (a ++ [c]) = q ++ [c].
Proof.
  intros Hc. induction a as [|d a [q Hq]]; simpl.
  - rewrite Hc. now exists [].
  - destruct (isspace d); [now exists q | now exists (d :: a)].
Qed.

Lemma rstrip_keeps_head (c : N) (r : str) :
  isspace c = false -> exists m : str, rstrip (c :: r) = c :: m.
Proof.
  intros Hc. unfold rstrip. simpl rev.
  destruct (lstrip_ends (rev r) c Hc) as [q Hq]. rewrite Hq.
  rewrite rev_app_distr. simpl. now exists (rev q).
Qed.

Lemma strip_trimmed (s : str) : trimmed (strip s).
Proof.
  intros c [H | H].
  - unfold strip in H.
    destruct (lstrip_head s) as [E | [d [r [E Hd]]]]; rewrite E in H.
    + discriminate.
    + destruct (rstrip_keeps_head d r Hd) as [m Hm]. rewrite Hm in H.
      simpl in H. now injection H as <-.
  - unfold strip, rstrip in H. rewrite rev_involutive in H.
    destruct (lstrip_head (rev (lstrip s))) as [E | [d [r [E Hd]]]];
      rewrite E in H.
    + discriminate.
    + simpl in H. now injection H as <-.
Qed.

Lemma trimmed_strip (s : str) : trimmed s -> strip s = s.
Proof.
  intros H. unfold strip.
  assert (lstrip s = s) as ->.
  { destruct s as [|c r]; [reflexivity|].
    apply lstrip_fixed, H. now left. }
  unfold rstrip. destruct (rev s) as [|c r] eqn:E.
  - simpl. rewrite <- (rev_involutive s), E. reflexivity.
  - rewrite lstrip_fixed.
    + rewrite <- E. apply rev_involutive.
    + apply H. right. now rewrite E.
Qed.

Lemma strip_idempotent (s : str) : strip (strip s) = strip s.
Proof. apply trimmed_strip, strip_trimmed. Qed.

Lemma blank_strip (s : str) : blank (strip s) = blank s.
Proof.
  destruct (blank s) eqn:E.
  - now rewrite strip_blank.
  - destruct (blank (strip s)) eqn:E'; [|reflexivity].
    apply strip_blank in E'. rewrite strip_idempotent in E'.
    assert (is_empty (strip s) = true) as H by now rewrite E'.
    apply strip_empty_iff in H. congruence.
Qed.

(** ** [POST /api/interpret], further *)

Lemma new_calls_app (before added : list PersistCall) :
  new_calls before (before ++ added) = added.
Proof.
  unfold new_calls. rewrite skipn_app, skipn_all, Nat.sub_diag. reflexivity.
Qed.

Lemma new_calls_same (before : list PersistCall) : new_calls before before = [].
Proof. unfold new_calls. apply skipn_all. Qed.

(** X1: For a request that passed validation, what [interpret] does is
    decided by the transcript alone: it raises [HTTPException] 400 exactly
    when the transcript is blank and returns otherwise, and neither the user
    id, the context, the clock, the earlier calls nor what the persistence
    collaborator returns or raises has a part in the outcome. *)
Theorem interpret_outcome_by_transcript (unicode_lower : str -> str) :
  (forall (env : Env) (req : InterpretRequest) (calls : list PersistCall),
      (snd (interpret unicode_lower env req calls)
       = Raises (HTTPException 400 (cps "Transcript is required"))
       <-> blank (transcript req) = true)
      /\ ((exists r : InterpretResponse,
             snd (interpret unicode_lower env req calls) = Returns r)
          <-> blank (transcript req) = false))
  /\ (forall (env env' : Env) (req req' : InterpretRequest)
             (calls calls' : list PersistCall),
         transcript req = transcript req' ->
         snd (interpret unicode_lower env req calls)
         = snd (interpret unicode_lower env' req' calls')).
Proof.
  split.
  - intros env req calls. destruct (blank (transcript req)) eqn:E.
    + rewrite interpret_blank by exact E. cbn [snd]. split; split; intros H;
        try reflexivity; try discriminate.
      destruct H as [r H]. discriminate.
    + rewrite interpret_accepts by exact E. cbn [snd]. split; split; intros H;
        try reflexivity; try discriminate.
      now eexists.
  - intros env env' req req' calls calls' E.
    destruct (blank (transcript req)) eqn:B.
    + rewrite !interpret_blank; [reflexivity | now rewrite <- E | exact B].
    + rewrite !interpret_accepts; [now rewrite E | now rewrite <- E | exact B].
Qed.

(** X2: White space around the transcript changes neither the answer nor the
    record handed to [create_document]. *)
Theorem surrounding_space_ignored (unicode_lower : str -> str) (env : Env)
    (uid : field str) (ctx : field dict) (t : str) (calls : list PersistCall) :
  post_interpret unicode_lower env (mkInterpretBody uid (Present (strip t)) ctx) calls
  = post_interpret unicode_lower env (mkInterpretBody uid (Present t) ctx) calls.
Proof.
  rewrite !post_interpret_run. cbn [body_transcript].
  rewrite blank_strip. destruct (blank t); [reflexivity|].
  unfold attempted, interaction_of, reply_of, request_of.
  cbn [transcript user_id context body_user_id body_context].
  now rewrite strip_idempotent.
Qed.

(** X3: The transcript of every record handed to [create_document] is the
    submitted one without the blank run at either end: it begins and ends
    with a code point that is not white space. *)
Theorem persisted_transcript_trimmed (unicode_lower : str -> str) (env : Env)
    (uid : field str) (ctx : field dict) (t : str) (calls : list PersistCall) :
  Forall (fun c : PersistCall =>
            trimmed (doc_transcript (snd c))
            /\ exists p q : str,
                 t = p ++ doc_transcript (snd c) ++ q
                 /\ blank p = true /\ blank q = true)
         (new_calls calls
            (fst (post_interpret unicode_lower env
                    (mkInterpretBody uid (Present t) ctx) calls))).
Proof.
  rewrite post_interpret_run. cbn [body_transcript].
  destruct (blank t); cbn [fst]; [rewrite new_calls_same; constructor|].
  rewrite new_calls_app. unfold attempted.
  destruct (import_create_document env); [|constructor].
  constructor; [|constructor]. cbn. split.
  - apply strip_trimmed.
  - apply strip_split.
Qed.

(** X4: A record is handed to [create_document] only for a request answered 200;
    it goes to the collection "interaction" and carries the intent and reply
    of the answer, the user id and context of the request (an empty mapping
    for no context) and the time of the clock. *)
Theorem record_matches_answer (unicode_lower : str -> str) (env : Env)
    (body : InterpretBody) (calls : list PersistCall) :
  Forall (fun c : PersistCall =>
            fst c = cps "interaction"
            /\ doc_user_id (snd c) = optional (body_user_id body)
            /\ doc_context (snd c)
               = match body_context body with
                 | Present d => d
                 | Absent | Null => []
                 end
            /\ doc_created_at (snd c) = utcnow env
            /\ match snd (post_interpret unicode_lower env body calls) with
               | Ok r =>
                   doc_intent (snd c) = intent r
                   /\ doc_ai_response (snd c) = ai_response r
               | _ => False
               end)
         (new_calls calls (fst (post_interpret unicode_lower env body calls))).
Proof.
  rewrite post_interpret_run.
  destruct (body_transcript body) as [| |t];
    cbn [fst]; try (rewrite new_calls_same; constructor).
  destruct (blank t); cbn [fst]; [rewrite new_calls_same; constructor|].
  rewrite new_calls_app. unfold attempted.
  destruct (import_create_document env); [|constructor].
  constructor; [|constructor]. cbn -[cps]. repeat split.
  destruct (body_context body) as [| |[|kv d]]; reflexivity.
Qed.

(** X5: A request adds one call to [create_document] when its transcript is not
    blank and the function could be imported, whether or not the call then
    raises, and none otherwise. *)
Theorem one_call_per_accepted_request (unicode_lower : str -> str) (env : Env)
    (body : InterpretBody) (calls : list PersistCall) :
  length (new_calls calls (fst (post_interpret unicode_lower env body calls)))
  = match body_transcript body, import_create_document env with
    | Present t, Returns _ => if blank t then 0%nat else 1%nat
    | _, _ => 0%nat
    end.
Proof.
  rewrite post_interpret_run.
  destruct (body_transcript body) as [| |t];
    cbn [fst]; try (rewrite new_calls_same; reflexivity).
  destruct (blank t); cbn [fst].
  - rewrite new_calls_same. now destruct (import_create_document env).
  - rewrite new_calls_app. unfold attempted.
    now destruct (import_create_document env).
Qed.


(** ** The rule chain, further *)

Ltac absurd_label :=
  match goal with
  | H : @eq str _ _ |- _ => vm_compute in H; discriminate H
  | H : @eq (list N) _ _ |- _ => vm_compute in H; discriminate H
  end.

(** X6: The intent tells which rule fired: each label is answered exactly when
    its rule holds and none of the rules before it does; [general.query]
    exactly when no rule holds. *)
Theorem intent_names_the_rule (l : str) :
  (fst (classify_intent l) = cps "session.start"
   <-> mentions_any start_words l = true)
  /\ (fst (classify_intent l) = cps "lesson.list"
      <-> mentions_any start_words l = false
          /\ contains (cps "list") l = true /\ contains (cps "lesson") l = true)
  /\ (fst (classify_intent l) = cps "lesson.math"
      <-> mentions_any start_words l = false
          /\ contains (cps "list") l && contains (cps "lesson") l = false
          /\ mentions_any math_words l = true)
  /\ (fst (classify_intent l) = cps "session.stop"
      <-> mentions_any start_words l = false
          /\ contains (cps "list") l && contains (cps "lesson") l = false
          /\ mentions_any math_words l = false
          /\ mentions_any stop_words l = true)
  /\ (fst (classify_intent l) = cps "greeting"
      <-> mentions_any start_words l = false
          /\ contains (cps "list") l && contains (cps "lesson") l = false
          /\ mentions_any math_words l = false
          /\ mentions_any stop_words l = false
          /\ mentions_any greeting_words l = true)
  /\ (fst (classify_intent l) = cps "general.query"
      <-> mentions_any start_words l = false
          /\ contains (cps "list") l && contains (cps "lesson") l = false
          /\ mentions_any math_words l = false
          /\ mentions_any stop_words l = false
          /\ mentions_any greeting_words l = false).
Proof.
  unfold classify_intent, mentions_any, start_words, math_words, stop_words,
    greeting_words.
  destruct (existsb _ (cps "start" :: _));
    destruct (contains (cps "list") l);
    destruct (contains (cps "lesson") l);
    destruct (existsb _ (cps "math" :: _));
    destruct (existsb _ (cps "stop" :: _));
    destruct (existsb _ (cps "hello" :: _));
    cbn [andb fst];
    repeat split; intros;
    repeat match goal with H : _ /\ _ |- _ => destruct H end;
    try discriminate; try reflexivity; absurd_label.
Qed.

(** X7: The reply text is a function of the intent: two transcripts given the
    same intent are given the same text. *)
Theorem reply_determined_by_intent (l l' : str) :
  fst (classify_intent l) = fst (classify_intent l') ->
  snd (classify_intent l) = snd (classify_intent l').
Proof.
  unfold classify_intent.
  repeat match goal with
         | |- context [if ?b then _ else _] => destruct b
         end;
    cbn [fst snd]; intros H; try reflexivity; absurd_label.
Qed.

(** ** Letter case *)

Ltac decide_atoms :=
  repeat match goal with
         | |- context [?a <=? ?b] => destruct (N.leb_spec a b); try lia
         | |- context [?a =? ?b] => destruct (N.eqb_spec a b); try lia
         | |- context [?a <? ?b] => destruct (N.ltb_spec a b); try lia
         end.

Lemma isspace_ascii_lower (c : N) : isspace (ascii_lower c) = isspace c.
Proof.
  unfold ascii_lower.
  destruct (N.leb_spec 0x41 c); [destruct (N.leb_spec c 0x5A)|];
    cbn [andb]; try reflexivity.
  unfold isspace. decide_atoms; try reflexivity.
Qed.

Lemma ascii_lower_idempotent (c : N) : ascii_lower (ascii_lower c) = ascii_lower c.
Proof.
  unfold ascii_lower.
  destruct (N.leb_spec 0x41 c); [destruct (N.leb_spec c 0x5A)|];
    cbn [andb]; decide_atoms; try reflexivity.
Qed.

Lemma is_ascii_lower (c : N) : is_ascii (ascii_lower c) = is_ascii c.
Proof.
  unfold is_ascii, ascii_lower.
  destruct (N.leb_spec 0x41 c); [destruct (N.leb_spec c 0x5A)|];
    cbn [andb]; decide_atoms; try reflexivity.
Qed.

Lemma lstrip_map_lower (s : str) :
  lstrip (map ascii_lower s) = map ascii_lower (lstrip s).
Proof.
  induction s as [|c s IH]; [reflexivity|].
  simpl. rewrite isspace_ascii_lower. now destruct (isspace c).
Qed.

Lemma strip_map_lower (s : str) :
  strip (map ascii_lower s) = map ascii_lower (strip s).
Proof.
  unfold strip, rstrip.
  now rewrite lstrip_map_lower, <- map_rev, lstrip_map_lower, map_rev.
Qed.

Lemma blank_map_lower (s : str) : blank (map ascii_lower s) = blank s.
Proof.
  unfold blank. induction s as [|c s IH]; [reflexivity|].
  simpl. now rewrite isspace_ascii_lower, IH.
Qed.

Lemma ascii_map_lower (s : str) :
  forallb is_ascii (map ascii_lower s) = forallb is_ascii s.
Proof.
  induction s as [|c s IH]; [reflexivity|].
  simpl. now rewrite is_ascii_lower, IH.
Qed.

Lemma ascii_strip (s : str) :
  forallb is_ascii s = true -> forallb is_ascii (strip s) = true.
Proof.
  destruct (strip_split s) as [p [q [Hs _]]]. intros H.
  rewrite Hs, !forallb_app in H.
  apply andb_true_iff in H as [_ H]. now apply andb_true_iff in H as [H _].
Qed.

(** On an ASCII string [lower] is the letter-wise map, and lower-casing
    twice is lower-casing once. *)
Lemma lower_ascii (unicode_lower : str -> str) (s : str) :
  forallb is_ascii s = true ->
  lower unicode_lower s = map ascii_lower s.
Proof. intros H. unfold lower. now rewrite H. Qed.

Lemma reply_of_lowered (unicode_lower : str -> str) (t : str) :
  forallb is_ascii t = true ->
  reply_of unicode_lower (map ascii_lower t) = reply_of unicode_lower t.
Proof.
  intros H. unfold reply_of. rewrite strip_map_lower.
  rewrite !lower_ascii.
  - rewrite map_map.
    now rewrite (map_ext _ _ ascii_lower_idempotent).
  - now apply ascii_strip.
  - rewrite ascii_map_lower. now apply ascii_strip.
Qed.

(** X8: Two ASCII transcripts that differ only in the case of their letters are
    given the same answer. *)
Theorem ascii_case_ignored (unicode_lower : str -> str) (env : Env)
    (uid : field str) (ctx : field dict) (t t' : str) (calls : list PersistCall) :
  forallb is_ascii t = true ->
  forallb is_ascii t' = true ->
  map ascii_lower t = map ascii_lower t' ->
  snd (post_interpret unicode_lower env (mkInterpretBody uid (Present t) ctx) calls)
  = snd (post_interpret unicode_lower env (mkInterpretBody uid (Present t') ctx) calls).
Proof.
  intros Ht Ht' E. rewrite !post_interpret_run. cbn [body_transcript].
  rewrite <- (blank_map_lower t), <- (blank_map_lower t'), E.
  destruct (blank (map ascii_lower t')); [reflexivity|]. cbn [snd].
  rewrite <- (reply_of_lowered unicode_lower t Ht).
  rewrite <- (reply_of_lowered unicode_lower t' Ht').
  now rewrite E.
Qed.

(** ** [GET /test], further *)

Ltac run_probe :=
  unfold test_database, probe_database, probe_collections,
    bind, try_except, call, modify, ret.

Ltac probe_step := cbn -[cps firstn slice_to app set_or_not name_or_connected].

(** The name is read when the attribute is missing or returns. *)
Lemma name_read (db : DbObject) :
  db_name db = None \/ (exists n : str, db_name db = Some (Returns n)) ->
  exists n : str, name_or_connected db = Returns n.
Proof.
  unfold name_or_connected. intros [H | [n H]]; rewrite H; now eexists.
Qed.

Lemma test_database_returns (env : Env) :
  exists r : TestResponse, test_database env = Returns r.
Proof.
  run_probe.
  destruct (import_db env) as [[db|] | e]; probe_step.
  - destruct (name_or_connected db) as [name | e]; probe_step.
    + destruct (list_collection_names db); probe_step; now eexists.
    + destruct (is_ImportError e); probe_step; now eexists.
  - now eexists.
  - destruct (is_ImportError e); probe_step; now eexists.
Qed.

(** X9: Whatever the database does, [backend] says the server runs and
    [database_url] and [database_name] say only whether the two environment
    variables are set: the name of the database object is never reported. *)
Theorem probe_reports_environment (env : Env) :
  exists r : TestResponse,
    test_database env = Returns r
    /\ backend r = check_mark ++ cps " Running"
    /\ database_url r = Some (set_or_not (getenv env (cps "DATABASE_URL")))
    /\ database_name r = Some (set_or_not (getenv env (cps "DATABASE_NAME"))).
Proof.
  run_probe.
  destruct (import_db env) as [[db|] | e]; probe_step.
  - destruct (name_or_connected db) as [name | e]; probe_step.
    + destruct (list_collection_names db); probe_step;
        eexists; repeat split.
    + destruct (is_ImportError e); probe_step; eexists; repeat split.
  - eexists; repeat split.
  - destruct (is_ImportError e); probe_step; eexists; repeat split.
Qed.

Ltac absurd_field :=
  match goal with
  | H : @eq str _ _ |- _ => vm_compute in H; discriminate H
  | H : ?x <> ?x |- _ => now elim H
  end.

Ltac fields_agree :=
  eexists; split; [reflexivity|]; probe_step;
  repeat split; intros; try reflexivity; try (now left); try (now right);
  try absurd_field.

(** X10: The fields of the report agree with one another: the connection status
    is one of two texts; "Connected & Working" comes with "Connected";
    "Not Connected" comes with no collections; and collections are listed
    only under "Connected & Working". *)
Theorem probe_fields_agree (env : Env) :
  exists r : TestResponse,
    test_database env = Returns r
    /\ (connection_status r = cps "Connected"
        \/ connection_status r = cps "Not Connected")
    /\ (database r = check_mark ++ cps " Connected & Working" ->
        connection_status r = cps "Connected")
    /\ (connection_status r = cps "Not Connected" -> collections r = [])
    /\ (collections r <> [] ->
        database r = check_mark ++ cps " Connected & Working").
Proof.
  run_probe.
  destruct (import_db env) as [[db|] | e]; probe_step.
  - destruct (name_or_connected db) as [name | e]; probe_step.
    + destruct (list_collection_names db); probe_step; fields_agree.
    + destruct (is_ImportError e); probe_step; fields_agree.
  - fields_agree.
  - destruct (is_ImportError e); probe_step; fields_agree.
Qed.

(** X11: When the listing raises, the report still says "Connected", lists no
    collection and shows the first 50 code points of the exception's text,
    the whole text when it is no longer than that. *)
Theorem listing_failure_reported (env : Env) (db : DbObject) (e : PyExc) :
  import_db env = Returns (Some db) ->
  (db_name db = None \/ exists n : str, db_name db = Some (Returns n)) ->
  list_collection_names db = Raises e ->
  exists r : TestResponse,
    test_database env = Returns r
    /\ database r
       = warning_sign ++ cps "  Connected but Error: " ++ slice_to 50 (exc_text e)
    /\ connection_status r = cps "Connected"
    /\ collections r = []
    /\ ((length (exc_text e) <= 50)%nat ->
        database r = warning_sign ++ cps "  Connected but Error: " ++ exc_text e).
Proof.
  intros Hi Hn Hl. run_probe. rewrite Hi. probe_step.
  destruct (name_read db Hn) as [n ->]. probe_step. rewrite Hl. probe_step.
  eexists; split; [reflexivity|]; probe_step; repeat split.
  intros Hlen. unfold slice_to. now rewrite firstn_all2.
Qed.

(** X12: An exception of the import, or one of the read of [db.name] that
    is not an [AttributeError], ends the probe: the report says "Not
    Connected" and lists nothing; an [ImportError] is shown as "Database
    module not found", also when it comes from the attribute of a module that
    was found, any other exception as "Error: " and the first 50 code points
    of its text. An [AttributeError] of the read of [db.name] is swallowed
    by [hasattr]: the probe goes on to the listing and reports "Connected". *)
Theorem early_failure_reported (env : Env) (e : PyExc) :
  ((import_db env = Raises e
    \/ exists db : DbObject,
         import_db env = Returns (Some db)
         /\ db_name db = Some (Raises e) /\ is_AttributeError e = false) ->
   exists r : TestResponse,
     test_database env = Returns r
     /\ database r
        = (if is_ImportError e
           then cross_mark ++ cps " Database module not found"
           else cross_mark ++ cps " Error: " ++ slice_to 50 (exc_text e))
     /\ connection_status r = cps "Not Connected"
     /\ collections r = [])
  /\ (forall db : DbObject,
         import_db env = Returns (Some db) ->
         db_name db = Some (Raises e) ->
         is_AttributeError e = true ->
         exists r : TestResponse,
           test_database env = Returns r
           /\ connection_status r = cps "Connected"
           /\ match list_collection_names db with
              | Returns cols =>
                  database r = check_mark ++ cps " Connected & Working"
                  /\ collections r = firstn 10 cols
              | Raises e' =>
                  database r
                  = warning_sign ++ cps "  Connected but Error: "
                    ++ slice_to 50 (exc_text e')
                  /\ collections r = []
              end).
Proof.
  split.
  - intros [Hi | [db [Hi [Hn Ha]]]]; run_probe; rewrite Hi; probe_step.
    + destruct (is_ImportError e); probe_step; eexists; repeat split.
    + unfold name_or_connected. rewrite Hn, Ha. probe_step.
      destruct (is_ImportError e); probe_step; eexists; repeat split.
  - intros db Hi Hn Ha. run_probe. rewrite Hi. probe_step.
    unfold name_or_connected. rewrite Hn, Ha. probe_step.
    destruct (list_collection_names db); probe_step; eexists; repeat split.
Qed.

(** X13: When the listing returns, the report says "Connected & Working" and
    lists the first ten names in their order, all of them when there are no
    more than ten. *)
Theorem listing_reported (env : Env) (db : DbObject) (cols : list str) :
  import_db env = Returns (Some db) ->
  (db_name db = None \/ exists n : str, db_name db = Some (Returns n)) ->
  list_collection_names db = Returns cols ->
  exists r : TestResponse,
    test_database env = Returns r
    /\ database r = check_mark ++ cps " Connected & Working"
    /\ connection_status r = cps "Connected"
    /\ collections r = firstn 10 cols
    /\ ((length cols <= 10)%nat -> collections r = cols).
Proof.
  intros Hi Hn Hl. run_probe. rewrite Hi. probe_step.
  destruct (name_read db Hn) as [n ->]. probe_step. rewrite Hl. probe_step.
  eexists; split; [reflexivity|]; probe_step; repeat split.
  intros Hlen. now rewrite firstn_all2.
Qed.

(** ** The application *)

Lemma status_with_body {A B} (f : A -> B) (r : HttpResponse A) :
  status (with_body f r) = status r.
Proof. now destruct r. Qed.

(** X14: The four [GET] routes answer 200 and make no call to [create_document];
    [POST /api/interpret] makes at most one; and no route answers with a
    status other than 200, 400 or 422. *)
Theorem app_routes (unicode_lower : str -> str) (env : Env) (rq : Request)
    (calls : list PersistCall) :
  In (status (snd (app unicode_lower env rq calls))) [200; 400; 422]
  /\ match rq with
     | PostInterpret _ =>
         (length (new_calls calls (fst (app unicode_lower env rq calls))) <= 1)%nat
     | _ =>
         fst (app unicode_lower env rq calls) = calls
         /\ status (snd (app unicode_lower env rq calls)) = 200
     end.
Proof.
  destruct rq as [| | | |body]; cbn -[cps];
    try (split; [now left | now split]).
  - destruct (test_database_returns env) as [r Hr].
    unfold get_test. rewrite Hr. cbn. split; [now left | now split].
  - rewrite post_interpret_run.
    destruct (body_transcript body) as [| |t]; cbn -[cps].
    + rewrite new_calls_same. cbn. split; [auto | lia].
    + rewrite new_calls_same. cbn. split; [auto | lia].
    + destruct (blank t); cbn -[cps].
      * rewrite new_calls_same. cbn. split; [auto | lia].
      * rewrite new_calls_app. unfold attempted.
        destruct (import_create_document env); cbn; split; auto.
Qed.

(** ** The catalogue, further *)

(** X15: The lesson ids are pairwise distinct: an id names one lesson. *)
Theorem lesson_ids_distinct :
  NoDup (map id list_lessons)
  /\ forall a b : Lesson,
       In a list_lessons -> In b list_lessons -> id a = id b -> a = b.
Proof.
  split.
  - repeat constructor; cbn -[cps]; intros H;
      repeat match goal with
             | H : _ \/ _ |- _ => destruct H
             | H : False |- _ => destruct H
             end;
      absurd_label.
  - intros a b Ha Hb. cbn -[cps] in Ha, Hb.
    repeat match goal with
           | H : _ \/ _ |- _ => destruct H
           | H : False |- _ => destruct H
           end;
      subst; cbn -[cps]; intros H; try reflexivity; absurd_label.
Qed.

(** X16: The reply to a request for the lesson list names the title of every
    lesson of the catalogue. *)
Theorem lesson_list_reply_names_catalogue (l : str) :
  fst (classify_intent l) = cps "lesson.list" ->
  Forall (fun ls : Lesson => contains (title ls) (snd (classify_intent l)) = true)
         list_lessons.
Proof.
  unfold classify_intent.
  repeat match goal with
         | |- context [if ?b then _ else _] => destruct b
         end;
    cbn [fst snd]; intros H; try absurd_label.
  repeat constructor; vm_compute; reflexivity.
Qed.

(** ** Runs of the further properties *)

Lemma reply_determined_by_intent_witness :
  fst (classify_intent (cps "go on")) = fst (classify_intent (cps "begin"))
  /\ snd (classify_intent (cps "go on")) = snd (classify_intent (cps "begin")).
Proof.
  split; [vm_compute; reflexivity|].
  apply (reply_determined_by_intent (cps "go on") (cps "begin")).
  vm_compute; reflexivity.
Defined.

Lemma ascii_case_ignored_witness :
  map ascii_lower (cps "HELLO There") = map ascii_lower (cps "hello THERE")
  /\ snd (post_interpret no_case_table env_working
            (mkInterpretBody Absent (Present (cps "HELLO There")) Absent) [])
     = snd (post_interpret no_case_table env_working
              (mkInterpretBody Absent (Present (cps "hello THERE")) Absent) []).
Proof.
  split; [vm_compute; reflexivity|].
  apply (ascii_case_ignored no_case_table env_working Absent Absent
           (cps "HELLO There") (cps "hello THERE") []);
    vm_compute; reflexivity.
Defined.

Lemma listing_failure_reported_witness :
  exists r : TestResponse,
    test_database env_failing = Returns r
    /\ database r
       = warning_sign ++ cps "  Connected but Error: "
         ++ cps "01234567890123456789012345678901234567890123456789"
    /\ connection_status r = cps "Connected"
    /\ collections r = [].
Proof.
  destruct (listing_failure_reported env_failing
              (mkDbObject (Some (Returns (cps "echolearn")))
                 (Raises (mkExc false false
                    (cps "012345678901234567890123456789012345678901234567890123456789"))))
              (mkExc false false
                 (cps "012345678901234567890123456789012345678901234567890123456789"))
              eq_refl (or_intror (ex_intro _ (cps "echolearn") eq_refl)) eq_refl)
    as [r [Hr [Hd [Hc [Hl _]]]]].
  exists r. repeat split; assumption.
Defined.

Lemma early_failure_reported_witness :
  exists r : TestResponse,
    test_database env_lazy_name = Returns r
    /\ database r = cross_mark ++ cps " Database module not found"
    /\ connection_status r = cps "Not Connected"
    /\ collections r = [].
Proof.
  apply (proj1 (early_failure_reported env_lazy_name
                  (mkExc true false (cps "No module named 'pymongo'")))).
  right. eexists. repeat split; reflexivity.
Defined.

Lemma listing_reported_witness :
  exists r : TestResponse,
    test_database env_working = Returns r
    /\ database r = check_mark ++ cps " Connected & Working"
    /\ connection_status r = cps "Connected"
    /\ length (collections r) = 10%nat.
Proof.
  destruct (listing_reported env_working
              (mkDbObject (Some (Returns (cps "echolearn")))
                 (Returns (map (fun c => [c])
                    [97; 98; 99; 100; 101; 102; 103; 104; 105; 106; 107; 108])))
              (map (fun c => [c])
                 [97; 98; 99; 100; 101; 102; 103; 104; 105; 106; 107; 108])
              eq_refl (or_intror (ex_intro _ (cps "echolearn") eq_refl)) eq_refl)
    as [r [Hr [Hd [Hc [Hl _]]]]].
  exists r. repeat split; try assumption. now rewrite Hl.
Defined.

Lemma lesson_list_reply_names_catalogue_witness :
  fst (classify_intent (cps "list the lessons")) = cps "lesson.list"
  /\ Forall (fun ls : Lesson =>
               contains (title ls) (snd (classify_intent (cps "list the lessons")))
               = true)
            list_lessons.
Proof.
  split; [vm_compute; reflexivity|].
  apply (lesson_list_reply_names_catalogue (cps "list the lessons")).
  vm_compute; reflexivity.
Defined.

(** [hasattr] swallows the [AttributeError]: the probe goes on. *)
Example probe_name_unreadable :
  test_database env_name_unreadable
  = Returns (mkTestResponse
               (check_mark ++ cps " Running")
               (check_mark ++ cps " Connected & Working")
               (Some (cross_mark ++ cps " Not Set"))
               (Some (cross_mark ++ cps " Not Set"))
               (cps "Connected") [cps "interaction"]).
Proof. vm_compute. reflexivity. Qed.
